(** * BGE-M3 embedding server: the request handlers of docker/bge-m3/server.py

    The server parses a JSON body, calls [model.encode] once with fixed
    keyword flags, reshapes the returned arrays into JSON values and
    answers.  The model (FlagEmbedding / numpy) is an external collaborator:
    a handler is a program that may call it, and properties of a handler
    are stated for every collaborator, or under an explicit assumption on
    it. *)

From Stdlib Require Import ZArith String DecimalString.
From Stdlib Require Import Floats.SpecFloat.
From stdpp Require Import base option list strings gmap.

Set Warnings "-register-all".
Local Open Scope Z_scope.

(** ** Python values *)

(** What [request.get_json()] yields and what [jsonify] takes: [None],
    booleans, integers, floats, strings, lists and string-keyed dicts.
    A float is kept as its IEEE value; no arithmetic is done on it. *)
Inductive pyval : Type :=
| PyNone
| PyBool (b : bool)
| PyInt (z : Z)
| PyFloat (f : spec_float)
| PyStr (s : string)
| PyList (l : list pyval)
| PyDict (d : gmap string pyval).

(** Python's truth value testing, as used by [if not text:]. *)
Definition truthy (v : pyval) : bool :=
  match v with
  | PyNone => false
  | PyBool b => b
  | PyInt z => negb (z =? 0)
  | PyFloat (S754_zero _) => false
  | PyFloat _ => true
  | PyStr s => negb (String.eqb s "")
  | PyList l => negb (Nat.eqb (length l) 0)
  | PyDict d => negb (Nat.eqb (size d) 0)
  end.

(** The exceptions a handler can end with. [OtherError] stands for
    whatever the model raises. *)
Inductive exn : Type :=
| AttributeError
| IndexError
| OtherError (name : string).

(** ** The collaborator's data *)

(** The numpy and FlagEmbedding types are not this repository's; the code
    only applies [.tolist()], [float(..)] and [int(..)] to them.  The three
    conversions are taken to succeed on what the model returns: a key is a
    token id, [int(k)] is the integer it denotes, sign included. *)
Class Collaborator : Type := {
  ndarray : Type;                         (* a row of result["dense_vecs"] *)
  np_float : Type;                        (* a weight of lexical_weights *)
  token_key : Type;                       (* a key of lexical_weights *)
  tolist : ndarray -> list spec_float;    (* vec.tolist() *)
  py_float : np_float -> spec_float;      (* float(v) *)
  py_int : token_key -> Z                 (* int(k) *)
}.

(** Process-wide configuration, read once from the environment when the
    module is loaded ([MODEL_NAME], [MAX_LENGTH]) and never written again. *)
Class Config : Type := {
  MODEL_NAME : string;
  MAX_LENGTH : Z
}.

(** An HTTP answer: the JSON body and the status code. *)
Record response : Type := {
  json : pyval;
  status : Z
}.

(** Keyword arguments of [model.encode]. *)
Record encode_args : Type := {
  sentences : pyval;
  max_length : Z;
  return_dense : bool;
  return_sparse : bool;
  return_colbert_vecs : bool
}.

(** What one request leaves behind: the response or the exception that
    escaped the handler, the calls made to the model, and the model's
    state afterwards. *)
Record run_result (W A : Type) : Type := {
  outcome : exn + A;
  calls : list encode_args;
  world : W
}.
Arguments outcome {W A} r.
Arguments calls {W A} r.
Arguments world {W A} r.

Section Server.
Context {collab : Collaborator} {config : Config}.

(** One lexical-weight mapping: a Python dict, in its iteration order. *)
Definition lexical_weights_t : Type := list (token_key * np_float).

Definition dict_keys (d : lexical_weights_t) : list token_key := d.*1.
Definition dict_values (d : lexical_weights_t) : list np_float := d.*2.
Definition dict_truthy (d : lexical_weights_t) : bool := negb (Nat.eqb (length d) 0).

(** What the handlers read from the result of [model.encode] when
    [sentences] is a list: one row and one mapping per sentence.  (For a
    bare string FlagEmbedding answers one unbatched vector and mapping,
    which this record does not carry; what a batch route answers is
    therefore stated for a [texts] that is a list.) *)
Record encode_result : Type := {
  dense_vecs : list ndarray;
  lexical_weights : list lexical_weights_t
}.

(** ** Handler programs *)

(** A handler returns, raises, or calls [model.encode] and goes on with
    its result. *)
Inductive prog (A : Type) : Type :=
| Ret (a : A)
| Raise (e : exn)
| Encode (args : encode_args) (k : encode_result -> prog A).
Arguments Ret {A} a.
Arguments Raise {A} e.
Arguments Encode {A} args k.

Fixpoint prog_bind_aux {A B : Type} (f : A -> prog B) (p : prog A) : prog B :=
  match p with
  | Ret a => f a
  | Raise e => Raise e
  | Encode args k => Encode args (fun r => prog_bind_aux f (k r))
  end.

#[global] Instance prog_ret : MRet prog := @Ret.
#[global] Instance prog_bind : MBind prog := @prog_bind_aux.

Definition model_encode (args : encode_args) : prog encode_result :=
  Encode args Ret.

(** [data.get(key, default)]: only a dict has [get]. *)
Definition py_get (data : pyval) (key : string) (dflt : pyval) : prog pyval :=
  match data with
  | PyDict d => Ret (default dflt (d !! key))
  | _ => Raise AttributeError
  end.

(** [xs[i]] on a sequence. *)
Definition py_index {A : Type} (xs : list A) (i : nat) : prog A :=
  match xs !! i with
  | Some x => Ret x
  | None => Raise IndexError
  end.

Definition py_floats (xs : list spec_float) : pyval := PyList (PyFloat <$> xs).

Definition jsonify (body : pyval) : response :=
  {| json := body; status := 200 |}.

(** [return jsonify(body), code] *)
Definition with_status (r : response) (code : Z) : response :=
  {| json := json r; status := code |}.

(** ** server.py *)

Definition sparse_to_dict (lexical_weights : lexical_weights_t) : pyval :=
  if negb (dict_truthy lexical_weights) then
    PyDict {[ "indices" := PyList []; "values" := PyList [] ]}
  else
    let indices := PyInt ∘ py_int <$> dict_keys lexical_weights in
    let values := PyFloat ∘ py_float <$> dict_values lexical_weights in
    PyDict {[ "indices" := PyList indices; "values" := PyList values ]}.

Definition health : response :=
  jsonify (PyDict {[ "status" := PyStr "ok"; "model" := PyStr MODEL_NAME ]}).

Definition embed (data : pyval) : prog response :=
  text ← py_get data "text" (PyStr "");
  if negb (truthy text) then
    mret (with_status (jsonify (PyDict {[ "error" := PyStr "text is required" ]})) 400)
  else
    result ← model_encode {| sentences := PyList [text];
                             max_length := MAX_LENGTH;
                             return_dense := true;
                             return_sparse := false;
                             return_colbert_vecs := false |};
    vec ← py_index (dense_vecs result) 0;
    let embedding := py_floats (tolist vec) in
    mret (jsonify (PyDict {[ "embedding" := embedding ]})).

Definition embed_batch (data : pyval) : prog response :=
  texts ← py_get data "texts" (PyList []);
  if negb (truthy texts) then
    mret (with_status (jsonify (PyDict {[ "error" := PyStr "texts is required" ]})) 400)
  else
    result ← model_encode {| sentences := texts;
                             max_length := MAX_LENGTH;
                             return_dense := true;
                             return_sparse := false;
                             return_colbert_vecs := false |};
    let embeddings := py_floats ∘ tolist <$> dense_vecs result in
    mret (jsonify (PyDict {[ "embeddings" := PyList embeddings ]})).

Definition embed_full (data : pyval) : prog response :=
  text ← py_get data "text" (PyStr "");
  if negb (truthy text) then
    mret (with_status (jsonify (PyDict {[ "error" := PyStr "text is required" ]})) 400)
  else
    result ← model_encode {| sentences := PyList [text];
                             max_length := MAX_LENGTH;
                             return_dense := true;
                             return_sparse := true;
                             return_colbert_vecs := false |};
    vec ← py_index (dense_vecs result) 0;
    let dense := py_floats (tolist vec) in
    lw ← py_index (lexical_weights result) 0;
    let sparse := sparse_to_dict lw in
    mret (jsonify (PyDict {[ "dense" := dense; "sparse" := sparse ]})).

Definition embed_batch_full (data : pyval) : prog response :=
  texts ← py_get data "texts" (PyList []);
  if negb (truthy texts) then
    mret (with_status (jsonify (PyDict {[ "error" := PyStr "texts is required" ]})) 400)
  else
    result ← model_encode {| sentences := texts;
                             max_length := MAX_LENGTH;
                             return_dense := true;
                             return_sparse := true;
                             return_colbert_vecs := false |};
    let dense := py_floats ∘ tolist <$> dense_vecs result in
    let sparse := sparse_to_dict <$> lexical_weights result in
    mret (jsonify (PyDict {[ "dense" := PyList dense; "sparse" := PyList sparse ]})).

(** The routes of the four embedding endpoints. *)
Inductive endpoint : Type :=
| EmbedRoute            (* POST /embed *)
| EmbedBatchRoute       (* POST /embed/batch *)
| EmbedFullRoute        (* POST /embed/full *)
| EmbedBatchFullRoute.  (* POST /embed/batch/full *)

Definition handler (ep : endpoint) : pyval -> prog response :=
  match ep with
  | EmbedRoute => embed
  | EmbedBatchRoute => embed_batch
  | EmbedFullRoute => embed_full
  | EmbedBatchFullRoute => embed_batch_full
  end.

(** ** Running a handler against a model *)

(** The model is whatever answers [encode]: it may keep state of its own
    ([W]) and may raise. *)
Definition model_t (W : Type) : Type :=
  encode_args -> W -> (exn + encode_result) * W.

Fixpoint run {W A : Type} (model : model_t W) (p : prog A) (w : W)
  : run_result W A :=
  match p with
  | Ret a => {| outcome := inr a; calls := []; world := w |}
  | Raise e => {| outcome := inl e; calls := []; world := w |}
  | Encode args k =>
      match model args w with
      | (inl e, w') => {| outcome := inl e; calls := [args]; world := w' |}
      | (inr r, w') =>
          let rest := run model (k r) w' in
          {| outcome := outcome rest;
             calls := args :: calls rest;
             world := world rest |}
      end
  end.

(** ** Vocabulary of the statements *)

(** Per route: the field it requires, the default of its [data.get], and
    whether it is a batch or a "full" variant. *)
Definition required_field (ep : endpoint) : string :=
  match ep with
  | EmbedRoute | EmbedFullRoute => "text"
  | EmbedBatchRoute | EmbedBatchFullRoute => "texts"
  end.

Definition field_default (ep : endpoint) : pyval :=
  match ep with
  | EmbedRoute | EmbedFullRoute => PyStr ""
  | EmbedBatchRoute | EmbedBatchFullRoute => PyList []
  end.

Definition is_batch (ep : endpoint) : bool :=
  match ep with
  | EmbedBatchRoute | EmbedBatchFullRoute => true
  | EmbedRoute | EmbedFullRoute => false
  end.

Definition is_full (ep : endpoint) : bool :=
  match ep with
  | EmbedFullRoute | EmbedBatchFullRoute => true
  | EmbedRoute | EmbedBatchRoute => false
  end.

(** The value the handler of [ep] tests and forwards, for a dict body. *)
Definition field_value (ep : endpoint) (d : gmap string pyval) : pyval :=
  default (field_default ep) (d !! required_field ep).

(** The 400 answer of [ep]. *)
Definition validation_error (ep : endpoint) : response :=
  {| json := PyDict {[ "error" := PyStr (required_field ep ++ " is required") ]};
     status := 400 |}.

(** The one call a validated request on [ep] with field value [v] is
    expected to make. *)
Definition expected_call (ep : endpoint) (v : pyval) : encode_args :=
  {| sentences := if is_batch ep then v else PyList [v];
     max_length := MAX_LENGTH;
     return_dense := true;
     return_sparse := is_full ep;
     return_colbert_vecs := false |}.

(** The field is absent, or is the empty string or the empty sequence. *)
Definition missing_or_empty (key : string) (d : gmap string pyval) : Prop :=
  d !! key = None ∨ d !! key = Some (PyStr "") ∨ d !! key = Some (PyList []).

(** A model whose answer to a call does not depend on its state. *)
Definition deterministic {W : Type} (model : model_t W) : Prop :=
  ∀ args w1 w2, (model args w1).1 = (model args w2).1.

(** A model that, asked for the dense vectors of a non-empty batch of
    strings, returns [vec_of] of each string, in input order. *)
Definition per_input {W : Type} (model : model_t W) (vec_of : string → ndarray) : Prop :=
  ∀ (T : list string) (w : W), T ≠ [] →
    ∃ r, (model (expected_call EmbedBatchRoute (PyList (PyStr <$> T))) w).1 = inr r
         ∧ dense_vecs r = vec_of <$> T.



(** The body carries every representation the route of [ep] promises. *)
Definition complete_body (ep : endpoint) (body : pyval) : Prop :=
  match ep with
  | EmbedRoute => ∃ e, body = PyDict {[ "embedding" := PyList e ]}
  | EmbedBatchRoute => ∃ es, body = PyDict {[ "embeddings" := PyList es ]}
  | EmbedFullRoute =>
      ∃ d i v, body = PyDict {[ "dense" := PyList d;
                                "sparse" := PyDict {[ "indices" := PyList i;
                                                      "values" := PyList v ]} ]}
  | EmbedBatchFullRoute =>
      ∃ ds sps, body = PyDict {[ "dense" := PyList ds; "sparse" := PyList sps ]}
                ∧ Forall (λ sp, ∃ i v, sp = PyDict {[ "indices" := PyList i;
                                                      "values" := PyList v ]}) sps
  end.

(** The batch dense route on [T] against the single dense route on each
    element of [T]: the batch answers 200 with one embedding per text, and
    the i-th one is the whole answer of the single route on the i-th text. *)
Definition batch_matches_single {W : Type} (model : model_t W) (w : W)
    (T : list string) : Prop :=
  ∃ embeddings,
    outcome (run model (embed_batch (PyDict {[ "texts" := PyList (PyStr <$> T) ]})) w)
      = inr (jsonify (PyDict {[ "embeddings" := PyList embeddings ]}))
    ∧ length embeddings = length T
    ∧ ∀ i s, T !! i = Some s →
        ∃ e, embeddings !! i = Some e
             ∧ ∀ w', outcome (run model (embed (PyDict {[ "text" := PyStr s ]})) w')
                       = inr (jsonify (PyDict {[ "embedding" := e ]})).

End Server.

Arguments Ret {_ A} a.
Arguments Raise {_ A} e.
Arguments Encode {_ A} args k.

(** ** A small concrete collaborator, to evaluate the handlers on *)

Definition demo_float (n : nat) : spec_float := S754_finite false (Pos.of_succ_nat n) 0.

Definition demo_collab : Collaborator :=
  {| ndarray := list spec_float;
     np_float := spec_float;
     token_key := Z;
     tolist := id;
     py_float := id;
     py_int := id |}.

Definition demo_config : Config :=
  {| MODEL_NAME := "BAAI/bge-m3"; MAX_LENGTH := 8192 |}.

Definition demo_vec_of (s : string) : list spec_float :=
  [demo_float (String.length s); demo_float 0].

Definition demo_vec (v : pyval) : list spec_float :=
  match v with
  | PyStr s => demo_vec_of s
  | _ => []
  end.

Definition demo_weights (v : pyval) : list (Z * spec_float) :=
  match v with
  | PyStr (String c s) => [(Z.of_N (Ascii.N_of_ascii c), demo_float (String.length s))]
  | _ => []
  end.

(** Counts the calls it has answered; fails on anything but a list. *)
Definition demo_model : @model_t demo_collab nat :=
  λ args n,
    match sentences args with
    | PyList l =>
        (inr (@Build_encode_result demo_collab
                (demo_vec <$> l)
                (if return_sparse args then demo_weights <$> l else [])),
         S n)
    | _ => (inl (OtherError "TypeError"), S n)
    end.



(** A model that is out of memory. *)
Definition failing_model : @model_t demo_collab nat :=
  λ _ n, (inl (OtherError "OutOfMemoryError"), S n).

(** ** Start-up: the configuration read from the environment *)

(** [os.environ.get(key, default)]: the default stands in only for a
    variable that is not set. *)
Definition os_environ_get (environ : gmap string string) (key dflt : string) : string :=
  default dflt (environ !! key).

Section Startup.
(** [int(s)] on a string is Python's; it returns an integer or raises. *)
Variable str_to_int : string → exn + Z.

(** The two module-level assignments, in their order.  Building the model
    from [MODEL_NAME] comes after them and is the collaborator's. *)
Definition load_module (environ : gmap string string) : exn + Config :=
  let model_name := os_environ_get environ "MODEL_NAME" "BAAI/bge-m3" in
  match str_to_int (os_environ_get environ "MAX_LENGTH" "8192") with
  | inl e => inl e
  | inr n => inr {| MODEL_NAME := model_name; MAX_LENGTH := n |}
  end.

End Startup.

(** A stand-in for [int(s)], for evaluation: plain decimal digits only. *)
Definition demo_str_to_int (s : string) : exn + Z :=
  if String.eqb s "" then inl (OtherError "ValueError")
  else match DecimalString.NilEmpty.uint_of_string s with
       | Some u => inr (Z.of_uint u)
       | None => inl (OtherError "ValueError")
       end.

(** A model that returns two vectors and one mapping, whatever it is asked. *)
Definition lopsided_result : @encode_result demo_collab :=
  @Build_encode_result demo_collab
    [[demo_float 1]; [demo_float 2]]
    [[(7, demo_float 3)]].

Definition lopsided_model : @model_t demo_collab nat :=
  λ _ n, (inr lopsided_result, S n).

(** The mapping [demo_model] returns for a string. *)
Definition demo_weights_of (s : string) : list (Z * spec_float) :=
  demo_weights (PyStr s).

(** * Properties *)

Section Properties.
Context {collab : Collaborator} {config : Config}.

Ltac handler_body :=
  unfold handler, embed, embed_batch, embed_full, embed_batch_full,
    model_encode, py_get, mbind, mret, prog_bind, prog_ret;
  cbn [prog_bind_aux].

(** ** What a handler is, by the shape of the body *)

Lemma handler_not_dict (ep : endpoint) (data : pyval) :
  (∀ d, data ≠ PyDict d) → handler ep data = Raise AttributeError.
Proof.
  intros Hnd. destruct data; try (destruct ep; reflexivity).
  exfalso. by eapply Hnd.
Qed.

Lemma handler_falsy (ep : endpoint) (d : gmap string pyval) :
  truthy (field_value ep d) = false →
  handler ep (PyDict d) = Ret (validation_error ep).
Proof.
  unfold field_value. intros Hf.
  destruct ep; handler_body; cbn in Hf |- *; rewrite Hf; reflexivity.
Qed.

(** A validated request is one call to the model, followed by a
    continuation that makes no further call: it answers 200 with a
    complete body, or an index is out of range. *)
Lemma handler_truthy (ep : endpoint) (d : gmap string pyval) :
  truthy (field_value ep d) = true →
  ∃ k, handler ep (PyDict d) = Encode (expected_call ep (field_value ep d)) k
       ∧ ∀ r, k r = Raise IndexError
              ∨ ∃ resp, k r = Ret resp ∧ status resp = 200
                        ∧ complete_body ep (json resp).
Proof.
  unfold field_value. intros Ht.
  destruct ep; handler_body; cbn in Ht |- *; rewrite Ht; cbn [negb];
    eexists; (split; [reflexivity|]); intros r; cbn beta.
  - unfold py_index. destruct (dense_vecs r !! 0%nat); cbn; [right|by left].
    eexists; split; [reflexivity|]. split; [reflexivity|]. cbn. by eexists.
  - right. eexists; split; [reflexivity|]. split; [reflexivity|]. cbn. by eexists.
  - unfold py_index. destruct (dense_vecs r !! 0%nat); cbn; [|by left].
    destruct (lexical_weights r !! 0%nat) as [lw|]; cbn; [right|by left].
    eexists; split; [reflexivity|]. split; [reflexivity|]. cbn.
    unfold sparse_to_dict. destruct (negb (dict_truthy lw)); by do 3 eexists.
  - right. eexists; split; [reflexivity|]. split; [reflexivity|]. cbn.
    do 2 eexists. split; [reflexivity|].
    apply Forall_fmap, Forall_forall. intros lw _. cbn.
    unfold sparse_to_dict. destruct (negb (dict_truthy lw)); by do 2 eexists.
Qed.

(** The calls of a validated request, whatever the model answers. *)
Lemma calls_of_validated (ep : endpoint) (d : gmap string pyval) {W : Type}
    (model : model_t W) (w : W) :
  truthy (field_value ep d) = true →
  calls (run model (handler ep (PyDict d)) w)
    = [expected_call ep (field_value ep d)].
Proof.
  intros Hvalid.
  destruct (handler_truthy ep d Hvalid) as (k & -> & Hk). cbn.
  destruct (model _ w) as [[e|r] w']; cbn; [done|].
  by destruct (Hk r) as [-> | (resp & -> & _)].
Qed.

(** ** Validation *)

(** C2. On a JSON-object body whose required field is missing or empty,
    every embed handler returns status 400 with the body
    [{"error": "text is required"}] for the single routes and
    [{"error": "texts is required"}] for the batch routes. *)
Theorem missing_field_is_400 (ep : endpoint) (d : gmap string pyval)
    (Hmissing : missing_or_empty (required_field ep) d) :
  handler ep (PyDict d) =
    Ret match ep with
        | EmbedRoute | EmbedFullRoute =>
            {| json := PyDict {[ "error" := PyStr "text is required" ]};
               status := 400 |}
        | EmbedBatchRoute | EmbedBatchFullRoute =>
            {| json := PyDict {[ "error" := PyStr "texts is required" ]};
               status := 400 |}
        end.
Proof.
  rewrite handler_falsy.
  - by destruct ep.
  - unfold field_value.
    destruct Hmissing as [-> | [-> | ->]]; by destruct ep.
Qed.

(** C3. A request rejected by validation never reaches the model: the
    handler answers 400 having made no call to [encode], and the model is
    left as it was. *)
Theorem rejected_request_never_calls_model (ep : endpoint)
    (d : gmap string pyval) {W : Type} (model : model_t W) (w : W)
    (Hrejected : truthy (field_value ep d) = false) :
  run model (handler ep (PyDict d)) w =
    {| outcome := inr (validation_error ep); calls := []; world := w |}
  ∧ status (validation_error ep) = 400.
Proof.
  by rewrite handler_falsy.
Qed.

(** The other way round: a 400 answer is always the validation answer,
    given without any call. *)
Lemma status_400_without_call (ep : endpoint) (data : pyval) {W : Type}
    (model : model_t W) (w : W) (resp : response) :
  outcome (run model (handler ep data) w) = inr resp →
  status resp = 400 →
  resp = validation_error ep ∧ calls (run model (handler ep data) w) = [].
Proof.
  destruct data as [| | | | | |d];
    try (rewrite handler_not_dict by done; done).
  destruct (truthy (field_value ep d)) eqn:Ht.
  - destruct (handler_truthy ep d Ht) as (k & -> & Hk). cbn.
    destruct (model _ w) as [[e|r] w']; cbn; [done|].
    destruct (Hk r) as [-> | (resp' & -> & Hs & _)]; cbn; [done|].
    intros [= ->] H400. rewrite Hs in H400. done.
  - rewrite handler_falsy by done. cbn. by intros [= ->].
Qed.

(** C5. A validated request makes exactly one call to [encode]: with the
    whole submitted input (the text wrapped in a one-element list, or the
    batch as it is), the configured [MAX_LENGTH], dense on, sparse on
    exactly for the full routes, multi-vector off.  This holds whatever the
    model answers. *)
Theorem validated_request_calls_encode_once (ep : endpoint)
    (d : gmap string pyval) {W : Type} (model : model_t W) (w : W)
    (Hvalid : truthy (field_value ep d) = true) :
  calls (run model (handler ep (PyDict d)) w) =
    [ {| sentences := if is_batch ep then field_value ep d
                      else PyList [field_value ep d];
         max_length := MAX_LENGTH;
         return_dense := true;
         return_sparse := is_full ep;
         return_colbert_vecs := false |} ].
Proof.
  by rewrite calls_of_validated.
Qed.

(** C9. A body that parsed to [null] makes every embed handler raise when
    it reads the field, with no call to the model; so does any body that
    is not an object; and a handler that returns a response at all was
    given an object. *)
Theorem null_body_raises (ep : endpoint) {W : Type} (model : model_t W) (w : W) :
  run model (handler ep PyNone) w =
    {| outcome := inl AttributeError; calls := []; world := w |}
  ∧ (∀ data, (∀ d, data ≠ PyDict d) →
       run model (handler ep data) w =
         {| outcome := inl AttributeError; calls := []; world := w |})
  ∧ (∀ data resp, outcome (run model (handler ep data) w) = inr resp →
       ∃ d, data = PyDict d).
Proof.
  split; [by rewrite handler_not_dict|].
  split; [intros data Hnd; by rewrite handler_not_dict|].
  intros data resp.
  destruct data; try (rewrite handler_not_dict by done; done).
  by eexists.
Qed.

(** C10. Validation looks at the truth value of the field and at nothing
    else.  On an object body, a falsy field value of any type is answered
    400 without a call; a truthy value of any type passes and is handed to
    [encode] unchanged (wrapped in a list on the single routes).  [null],
    [0], [false], the empty string, the empty array and the empty object
    are falsy; a non-zero number and a non-empty string are truthy. *)
Theorem validation_tests_truthiness_only (ep : endpoint)
    (d : gmap string pyval) {W : Type} (model : model_t W) (w : W) :
  (truthy (field_value ep d) = false →
     run model (handler ep (PyDict d)) w =
       {| outcome := inr (validation_error ep); calls := []; world := w |})
  ∧ (truthy (field_value ep d) = true →
       ∃ args, calls (run model (handler ep (PyDict d)) w) = [args]
               ∧ sentences args = if is_batch ep then field_value ep d
                                  else PyList [field_value ep d])
  ∧ Forall (λ v, truthy v = false)
      [PyNone; PyInt 0; PyBool false; PyStr ""; PyList []; PyDict ∅]
  ∧ (∀ z, z ≠ 0 → truthy (PyInt z) = true)
  ∧ (∀ s, s ≠ "" → truthy (PyStr s) = true).
Proof.
  split; [intros Hf; by rewrite handler_falsy|].
  split.
  { intros Ht. eexists. split.
    - by apply calls_of_validated.
    - reflexivity. }
  split; [by repeat constructor|].
  split.
  - intros z Hz. cbn. by apply negb_true_iff, Z.eqb_neq.
  - intros s Hs. cbn. apply negb_true_iff. by apply String.eqb_neq.
Qed.

(** ** The sparse wire format *)

Lemma sparse_to_dict_eq (lw : lexical_weights_t) :
  sparse_to_dict lw
    = PyDict {[ "indices" := PyList (PyInt ∘ py_int <$> dict_keys lw);
                "values" := PyList (PyFloat ∘ py_float <$> dict_values lw) ]}.
Proof. by destruct lw. Qed.

(** C1. [sparse_to_dict] turns a mapping into two parallel arrays: entry
    [i] of [indices] and entry [i] of [values] come from entry [i] of the
    mapping, in the mapping's iteration order; the arrays have the
    mapping's length; the empty mapping gives two empty arrays. *)
Theorem sparse_to_dict_parallel (lw : lexical_weights_t) :
  let indices := (λ kv : token_key * np_float, PyInt (py_int kv.1)) <$> lw in
  let values := (λ kv : token_key * np_float, PyFloat (py_float kv.2)) <$> lw in
  sparse_to_dict lw
    = PyDict {[ "indices" := PyList indices; "values" := PyList values ]}
  ∧ length indices = length values
  ∧ (∀ i, indices !! i = (λ kv, PyInt (py_int kv.1)) <$> lw !! i
          ∧ values !! i = (λ kv, PyFloat (py_float kv.2)) <$> lw !! i)
  ∧ sparse_to_dict []
      = PyDict {[ "indices" := PyList []; "values" := PyList [] ]}.
Proof.
  cbn zeta. split; [|split; [|split]].
  - rewrite sparse_to_dict_eq. unfold dict_keys, dict_values.
    by rewrite <- !list_fmap_compose.
  - by rewrite !length_fmap.
  - intros i. by rewrite !list_lookup_fmap.
  - reflexivity.
Qed.



(** ** Determinism *)

(** The outcome of a request depends on the model only through its answer
    to the one call. *)
Lemma outcome_state_independent (ep : endpoint) (data : pyval) {W : Type}
    (model : model_t W) (w1 w2 : W) :
  deterministic model →
  outcome (run model (handler ep data) w1)
    = outcome (run model (handler ep data) w2).
Proof.
  intros Hdet.
  destruct data as [| | | | | |d];
    try (rewrite handler_not_dict by done; done).
  destruct (truthy (field_value ep d)) eqn:Ht.
  - destruct (handler_truthy ep d Ht) as (k & -> & Hk). cbn [run].
    specialize (Hdet (expected_call ep (field_value ep d)) w1 w2).
    destruct (model (expected_call ep (field_value ep d)) w1) as [[e1|r1] w1'];
      destruct (model (expected_call ep (field_value ep d)) w2) as [[e2|r2] w2'];
      cbn in Hdet |- *; simplify_eq; [done|].
    by destruct (Hk r2) as [-> | (resp & -> & _)].
  - by rewrite handler_falsy.
Qed.

(** C8. With a model that answers a given call the same way every time,
    two requests to the single dense route with the same body
    [{"text": s}], [s] non-empty, get the same outcome: whatever state the
    model is in, and in particular when the second follows the first. *)
Theorem embed_deterministic {W : Type} (model : model_t W) (s : string)
    (Hdet : deterministic model) (Hs : s ≠ "") (w1 w2 : W) :
  let body := PyDict {[ "text" := PyStr s ]} in
  outcome (run model (embed body) w1) = outcome (run model (embed body) w2)
  ∧ outcome (run model (embed body) (world (run model (embed body) w1)))
      = outcome (run model (embed body) w1)
  ∧ calls (run model (embed body) w1)
      = [expected_call EmbedRoute (PyStr s)].
Proof.
  cbn zeta. split; [|split].
  - by apply (outcome_state_independent EmbedRoute).
  - by apply (outcome_state_independent EmbedRoute).
  - assert (field_value EmbedRoute {[ "text" := PyStr s ]} = PyStr s) as Hfv
      by (unfold field_value; cbn; by rewrite lookup_singleton_eq).
    pose proof (calls_of_validated EmbedRoute {[ "text" := PyStr s ]} model w1) as Hc.
    rewrite Hfv in Hc. apply Hc.
    cbn. apply negb_true_iff. by apply String.eqb_neq.
Qed.

(** ** Batch against single *)

Lemma run_embed_batch_per_input {W : Type} (model : model_t W)
    (vec_of : string → ndarray) (T : list string) (w : W) :
  per_input model vec_of → T ≠ [] →
  outcome (run model (embed_batch (PyDict {[ "texts" := PyList (PyStr <$> T) ]})) w)
    = inr (jsonify (PyDict {[ "embeddings" :=
             PyList (py_floats ∘ tolist ∘ vec_of <$> T) ]})).
Proof.
  intros Hper HT. destruct (Hper T w HT) as (r & Hm & Hr).
  handler_body. rewrite lookup_singleton_eq. cbn [default from_option id].
  assert (truthy (PyList (PyStr <$> T)) = true) as ->
    by (by destruct T).
  cbn. unfold expected_call in Hm. cbn in Hm.
  destruct (model _ w) as [[e|r'] w']; cbn in Hm |- *; [done|].
  injection Hm as ->. rewrite Hr.
  by rewrite <- list_fmap_compose.
Qed.

Lemma run_embed_per_input {W : Type} (model : model_t W)
    (vec_of : string → ndarray) (s : string) (w : W) :
  per_input model vec_of → s ≠ "" →
  outcome (run model (embed (PyDict {[ "text" := PyStr s ]})) w)
    = inr (jsonify (PyDict {[ "embedding" := py_floats (tolist (vec_of s)) ]})).
Proof.
  intros Hper Hs.
  destruct (Hper [s] w) as (r & Hm & Hr); [done|].
  handler_body. rewrite lookup_singleton_eq. cbn [default from_option id].
  assert (truthy (PyStr s) = true) as ->
    by (cbn; apply negb_true_iff; by apply String.eqb_neq).
  cbn. unfold expected_call in Hm. cbn in Hm.
  destruct (model _ w) as [[e|r'] w']; cbn in Hm |- *; [done|].
  injection Hm as ->. unfold py_index. rewrite Hr. reflexivity.
Qed.

(** C4, as it holds. With a model that returns per-input vectors in input
    order, the batch dense route on a non-empty sequence of strings [T]
    answers [embeddings] of length [len(T)], [embeddings[i]] is the
    converted vector of [T[i]], and it is the answer of the single dense
    route on [T[i]] whenever [T[i]] is not the empty string. *)
Theorem batch_matches_single_on_nonempty_texts {W : Type} (model : model_t W)
    (vec_of : string → ndarray) (T : list string) (w : W)
    (Hper : per_input model vec_of) (HT : T ≠ []) :
  ∃ embeddings,
    outcome (run model (embed_batch (PyDict {[ "texts" := PyList (PyStr <$> T) ]})) w)
      = inr (jsonify (PyDict {[ "embeddings" := PyList embeddings ]}))
    ∧ length embeddings = length T
    ∧ ∀ i s, T !! i = Some s →
        embeddings !! i = Some (py_floats (tolist (vec_of s)))
        ∧ (s ≠ "" →
           ∀ w', outcome (run model (embed (PyDict {[ "text" := PyStr s ]})) w')
                   = inr (jsonify (PyDict {[ "embedding" :=
                            py_floats (tolist (vec_of s)) ]}))).
Proof.
  eexists. split; [by apply run_embed_batch_per_input|].
  split; [by rewrite length_fmap|].
  intros i s Hi. split.
  - rewrite list_lookup_fmap, Hi. reflexivity.
  - intros Hs w'. by apply run_embed_per_input.
Qed.

End Properties.

(** * Further properties of the handlers *)

Section Answers.
Context {collab : Collaborator} {config : Config}.

Ltac handler_steps :=
  unfold embed, embed_batch, embed_full, embed_batch_full,
    model_encode, py_get, py_index, mbind, mret, prog_bind, prog_ret;
  cbn [prog_bind_aux].

(** ** The outcome of a validated request, route by route *)

Lemma embed_outcome (d : gmap string pyval) {W : Type} (model : model_t W) (w : W) :
  truthy (default (PyStr "") (d !! "text")) = true →
  outcome (run model (embed (PyDict d)) w)
    = match (model (expected_call EmbedRoute (default (PyStr "") (d !! "text"))) w).1 with
      | inl e => inl e
      | inr r =>
          match dense_vecs r with
          | [] => inl IndexError
          | vec :: _ => inr (jsonify (PyDict {[ "embedding" := py_floats (tolist vec) ]}))
          end
      end.
Proof.
  intros Hvalid. handler_steps. rewrite Hvalid. cbn.
  destruct (model _ w) as [[e|r] w']; cbn; [done|].
  by destruct (dense_vecs r).
Qed.

Lemma embed_full_outcome (d : gmap string pyval) {W : Type} (model : model_t W) (w : W) :
  truthy (default (PyStr "") (d !! "text")) = true →
  outcome (run model (embed_full (PyDict d)) w)
    = match (model (expected_call EmbedFullRoute (default (PyStr "") (d !! "text"))) w).1 with
      | inl e => inl e
      | inr r =>
          match dense_vecs r, lexical_weights r with
          | vec :: _, lw :: _ =>
              inr (jsonify (PyDict {[ "dense" := py_floats (tolist vec);
                                      "sparse" := sparse_to_dict lw ]}))
          | _, _ => inl IndexError
          end
      end.
Proof.
  intros Hvalid. handler_steps. rewrite Hvalid. cbn.
  destruct (model _ w) as [[e|r] w']; cbn; [done|].
  destruct (dense_vecs r); cbn; [done|].
  by destruct (lexical_weights r).
Qed.

Lemma embed_batch_outcome (d : gmap string pyval) {W : Type} (model : model_t W) (w : W) :
  truthy (default (PyList []) (d !! "texts")) = true →
  outcome (run model (embed_batch (PyDict d)) w)
    = match (model (expected_call EmbedBatchRoute (default (PyList []) (d !! "texts"))) w).1 with
      | inl e => inl e
      | inr r =>
          inr (jsonify (PyDict {[ "embeddings" :=
                 PyList (py_floats ∘ tolist <$> dense_vecs r) ]}))
      end.
Proof.
  intros Hvalid. handler_steps. rewrite Hvalid. cbn.
  by destruct (model _ w) as [[e|r] w'].
Qed.

Lemma embed_batch_full_outcome (d : gmap string pyval) {W : Type}
    (model : model_t W) (w : W) :
  truthy (default (PyList []) (d !! "texts")) = true →
  outcome (run model (embed_batch_full (PyDict d)) w)
    = match (model (expected_call EmbedBatchFullRoute
                      (default (PyList []) (d !! "texts"))) w).1 with
      | inl e => inl e
      | inr r =>
          inr (jsonify (PyDict {[ "dense" := PyList (py_floats ∘ tolist <$> dense_vecs r);
                                  "sparse" := PyList (sparse_to_dict <$> lexical_weights r) ]}))
      end.
Proof.
  intros Hvalid. handler_steps. rewrite Hvalid. cbn.
  by destruct (model _ w) as [[e|r] w'].
Qed.

(** A request whose field is falsy is answered 400, on every route. *)
Lemma falsy_outcome (ep : endpoint) (d : gmap string pyval) {W : Type}
    (model : model_t W) (w : W) :
  truthy (field_value ep d) = false →
  run model (handler ep (PyDict d)) w
    = {| outcome := inr (validation_error ep); calls := []; world := w |}.
Proof. intros Hf. by rewrite handler_falsy. Qed.

Lemma outcome_json (r1 r2 : response) :
  (inr r1 : exn + response) = inr r2 → json r1 = json r2.
Proof. congruence. Qed.

(** Reading a key back from a two-key body. *)
Lemma two_key_body_inv (k1 k2 : string) (a b a' b' : pyval) :
  k1 ≠ k2 →
  PyDict {[ k1 := a; k2 := b ]} = PyDict {[ k1 := a'; k2 := b' ]} →
  a = a' ∧ b = b'.
Proof.
  intros Hne Heq.
  pose proof (f_equal (λ v, match v with PyDict m => m !! k1 | _ => None end) Heq) as H1.
  pose proof (f_equal (λ v, match v with PyDict m => m !! k2 | _ => None end) Heq) as H2.
  cbn beta iota in H1, H2.
  rewrite !lookup_insert_eq in H1.
  rewrite !lookup_insert_ne, !lookup_singleton_eq in H2 by done.
  split; congruence.
Qed.

Lemma one_key_body_inv (k : string) (a a' : pyval) :
  PyDict {[ k := a ]} = PyDict {[ k := a' ]} → a = a'.
Proof.
  intros Heq.
  apply (f_equal (λ v, match v with PyDict m => m !! k | _ => None end)) in Heq.
  cbn beta iota in Heq. rewrite !lookup_singleton_eq in Heq. congruence.
Qed.

(** ** Failure of the model *)


(** ** What each route answers *)

(** X1. A validated request to [/embed] ends as the one call ends: with
    the model's exception if it raises, with [IndexError] if it returns no
    vector, and otherwise with 200 and the first vector converted, the
    other rows being ignored.  The model is left as that call left it. *)
Theorem embed_answers_first_vector (d : gmap string pyval) {W : Type}
    (model : model_t W) (w : W)
    (Hvalid : truthy (default (PyStr "") (d !! "text")) = true) :
  let call := {| sentences := PyList [default (PyStr "") (d !! "text")];
                 max_length := MAX_LENGTH;
                 return_dense := true;
                 return_sparse := false;
                 return_colbert_vecs := false |} in
  outcome (run model (embed (PyDict d)) w)
    = match (model call w).1 with
      | inl e => inl e
      | inr r =>
          match dense_vecs r with
          | [] => inl IndexError
          | vec :: _ =>
              inr {| json := PyDict {[ "embedding" := PyList (PyFloat <$> tolist vec) ]};
                     status := 200 |}
          end
      end
  ∧ world (run model (embed (PyDict d)) w) = (model call w).2.
Proof.
  cbn zeta. handler_steps. rewrite Hvalid. cbn.
  destruct (model _ w) as [[e|r] w']; cbn; [done|].
  by destruct (dense_vecs r).
Qed.

(** X2. A validated request to [/embed/full] answers 200 with the first
    vector and the wire form of the first mapping; it ends with
    [IndexError] as soon as the model returns no vector or no mapping, and
    with the model's exception if the call raises.  A dense vector alone is
    never answered. *)
Theorem embed_full_answers_first_pair (d : gmap string pyval) {W : Type}
    (model : model_t W) (w : W)
    (Hvalid : truthy (default (PyStr "") (d !! "text")) = true) :
  let call := {| sentences := PyList [default (PyStr "") (d !! "text")];
                 max_length := MAX_LENGTH;
                 return_dense := true;
                 return_sparse := true;
                 return_colbert_vecs := false |} in
  outcome (run model (embed_full (PyDict d)) w)
    = match (model call w).1 with
      | inl e => inl e
      | inr r =>
          match dense_vecs r, lexical_weights r with
          | vec :: _, lw :: _ =>
              inr {| json := PyDict {[ "dense" := PyList (PyFloat <$> tolist vec);
                                       "sparse" := sparse_to_dict lw ]};
                     status := 200 |}
          | _, _ => inl IndexError
          end
      end
  ∧ world (run model (embed_full (PyDict d)) w) = (model call w).2.
Proof.
  cbn zeta. handler_steps. rewrite Hvalid. cbn.
  destruct (model _ w) as [[e|r] w']; cbn; [done|].
  destruct (dense_vecs r); cbn; [done|].
  by destruct (lexical_weights r).
Qed.

(** X3. A request to [/embed/batch] whose [texts] is a non-empty list
    never fails on its own: if the call returns, the answer is 200 with
    exactly one converted vector per row the model returned, in the
    model's order, however many texts were submitted; a model that returns
    no row gets an empty [embeddings] array, not an error. *)
Theorem embed_batch_answers_every_row (d : gmap string pyval) (texts : list pyval)
    {W : Type} (model : model_t W) (w : W) (r : encode_result)
    (Htexts : d !! "texts" = Some (PyList texts))
    (Hnonempty : texts ≠ [])
    (Hreturns : (model {| sentences := PyList texts;
                          max_length := MAX_LENGTH;
                          return_dense := true;
                          return_sparse := false;
                          return_colbert_vecs := false |} w).1 = inr r) :
  ∃ embeddings,
    outcome (run model (embed_batch (PyDict d)) w)
      = inr {| json := PyDict {[ "embeddings" := PyList embeddings ]}; status := 200 |}
    ∧ length embeddings = length (dense_vecs r)
    ∧ (∀ i, embeddings !! i
            = (λ vec, PyList (PyFloat <$> tolist vec)) <$> dense_vecs r !! i)
    ∧ (dense_vecs r = [] → embeddings = []).
Proof.
  exists ((λ vec, PyList (PyFloat <$> tolist vec)) <$> dense_vecs r).
  split; [|split; [|split]].
  - rewrite embed_batch_outcome; rewrite Htexts; cbn [default from_option id];
      [|by destruct texts].
    unfold expected_call. cbn [is_batch is_full]. by rewrite Hreturns.
  - by rewrite length_fmap.
  - intros i. by rewrite list_lookup_fmap.
  - by intros ->.
Qed.

(** X4. A request to [/embed/batch/full] whose [texts] is a non-empty list
    and that the model answers gets 200 with [dense] and [sparse] built
    row by row: entry [i] of [dense] is row [i] of the vectors, entry [i]
    of [sparse] is the wire form of mapping [i].  The two arrays have the
    lengths of what the model returned; the handler does not compare
    them. *)
Theorem embed_batch_full_answers_rowwise (d : gmap string pyval) (texts : list pyval)
    {W : Type} (model : model_t W) (w : W) (r : encode_result)
    (Htexts : d !! "texts" = Some (PyList texts))
    (Hnonempty : texts ≠ [])
    (Hreturns : (model {| sentences := PyList texts;
                          max_length := MAX_LENGTH;
                          return_dense := true;
                          return_sparse := true;
                          return_colbert_vecs := false |} w).1 = inr r) :
  ∃ dense sparse,
    outcome (run model (embed_batch_full (PyDict d)) w)
      = inr {| json := PyDict {[ "dense" := PyList dense; "sparse" := PyList sparse ]};
               status := 200 |}
    ∧ length dense = length (dense_vecs r)
    ∧ length sparse = length (lexical_weights r)
    ∧ ∀ i, dense !! i = (λ vec, PyList (PyFloat <$> tolist vec)) <$> dense_vecs r !! i
           ∧ sparse !! i = sparse_to_dict <$> lexical_weights r !! i.
Proof.
  exists ((λ vec, PyList (PyFloat <$> tolist vec)) <$> dense_vecs r),
         (sparse_to_dict <$> lexical_weights r).
  split; [|split; [|split]].
  - rewrite embed_batch_full_outcome; rewrite Htexts; cbn [default from_option id];
      [|by destruct texts].
    unfold expected_call. cbn [is_batch is_full]. by rewrite Hreturns.
  - by rewrite length_fmap.
  - by rewrite length_fmap.
  - intros i. by rewrite !list_lookup_fmap.
Qed.

(** X5. Every answer of every route has status 200 or 400.  A 400 is
    always the validation answer of the route, given without any call and
    with the model untouched; a 200 is given after exactly one call.  An
    error of the model is never turned into a 400. *)
Theorem answer_is_400_before_or_200_after_the_call (ep : endpoint) (data : pyval)
    {W : Type} (model : model_t W) (w : W) (resp : response)
    (Hanswer : outcome (run model (handler ep data) w) = inr resp) :
  (status resp = 400 ∧ resp = validation_error ep
   ∧ calls (run model (handler ep data) w) = []
   ∧ world (run model (handler ep data) w) = w)
  ∨ (status resp = 200
     ∧ ∃ d, data = PyDict d
            ∧ calls (run model (handler ep data) w)
                = [expected_call ep (field_value ep d)]).
Proof.
  revert Hanswer.
  destruct data as [| | | | | |d];
    try (rewrite handler_not_dict by done; done).
  destruct (truthy (field_value ep d)) eqn:Ht.
  - intros Hanswer. right.
    pose proof (calls_of_validated ep d model w Ht) as Hcalls.
    destruct (handler_truthy ep d Ht) as (k & Hk & Hcont).
    rewrite Hk in Hanswer |- *. cbn in Hanswer |- *.
    destruct (model _ w) as [[e|r] w']; cbn in Hanswer |- *; [done|].
    destruct (Hcont r) as [Hr | (resp' & Hr & Hs & _)];
      rewrite Hr in Hanswer |- *; cbn in Hanswer |- *; [done|].
    injection Hanswer as <-. split; [done|]. by exists d.
  - rewrite falsy_outcome by done. cbn. intros [= <-]. by left.
Qed.

(** X6. A handler reads one field of the body and nothing else: two
    object bodies that agree on the required field of the route give the
    same handler behaviour, whatever other keys they carry. *)
Theorem handler_reads_only_its_field (ep : endpoint) (d1 d2 : gmap string pyval)
    (Hsame : d1 !! required_field ep = d2 !! required_field ep) :
  handler ep (PyDict d1) = handler ep (PyDict d2).
Proof.
  destruct ep; unfold handler; handler_steps; cbn in Hsame; by rewrite Hsame.
Qed.

(** ** The sparse wire format, read back *)

Lemma wire_entries_eq (lw1 lw2 : lexical_weights_t) :
  PyInt ∘ py_int <$> dict_keys lw1 = PyInt ∘ py_int <$> dict_keys lw2 →
  PyFloat ∘ py_float <$> dict_values lw1 = PyFloat ∘ py_float <$> dict_values lw2 →
  (λ kv : token_key * np_float, (py_int kv.1, py_float kv.2)) <$> lw1
    = (λ kv : token_key * np_float, (py_int kv.1, py_float kv.2)) <$> lw2.
Proof.
  unfold dict_keys, dict_values.
  revert lw2. induction lw1 as [|[k v] lw1 IH]; intros [|[k' v'] lw2]; cbn; try done.
  intros [= Hk Hks] [= Hv Hvs]. f_equal; [congruence|]. by apply IH.
Qed.

(** X7. The wire form loses nothing: two mappings with the same wire form
    have the same entries, as (integer, float) pairs, in the same order.
    When [int] and [float] are one-to-one on keys and weights, the
    mappings are equal. *)
Theorem sparse_to_dict_loses_nothing (lw1 lw2 : lexical_weights_t)
    (Hsame : sparse_to_dict lw1 = sparse_to_dict lw2) :
  (λ kv : token_key * np_float, (py_int kv.1, py_float kv.2)) <$> lw1
    = (λ kv : token_key * np_float, (py_int kv.1, py_float kv.2)) <$> lw2
  ∧ ((∀ k k' : token_key, py_int k = py_int k' → k = k') →
     (∀ v v' : np_float, py_float v = py_float v' → v = v') →
     lw1 = lw2).
Proof.
  rewrite !sparse_to_dict_eq in Hsame.
  apply two_key_body_inv in Hsame as [[= Hi] [= Hv]]; [|done].
  pose proof (wire_entries_eq lw1 lw2 Hi Hv) as Hentries.
  split; [done|].
  intros Hint Hfloat. clear Hi Hv.
  revert lw2 Hentries.
  induction lw1 as [|[k v] lw1 IH]; intros [|[k' v'] lw2]; cbn; try done.
  intros [= Hk Hv Hrest]. f_equal; [|by apply IH].
  f_equal; [by apply Hint|by apply Hfloat].
Qed.

(** X8. The indices of the wire form are pairwise distinct when the keys
    of the mapping are (as the keys of a dict are) and [int] does not send
    two of them to the same integer. *)
Theorem sparse_indices_distinct (lw : lexical_weights_t)
    (Hkeys : NoDup (dict_keys lw))
    (Hint : ∀ k k', k ∈ dict_keys lw → k' ∈ dict_keys lw →
                    py_int k = py_int k' → k = k') :
  ∃ (idx : list Z) (vals : list spec_float),
    sparse_to_dict lw
      = PyDict {[ "indices" := PyList (PyInt <$> idx);
                  "values" := PyList (PyFloat <$> vals) ]}
    ∧ NoDup idx
    ∧ length idx = length lw.
Proof.
  exists (py_int <$> dict_keys lw), (py_float <$> dict_values lw).
  split; [|split].
  - rewrite sparse_to_dict_eq. by rewrite <- !list_fmap_compose.
  - by apply NoDup_fmap_2_strong.
  - unfold dict_keys. by rewrite !length_fmap.
Qed.

(** ** Routes against each other *)

(** X9. When the model's dense vectors for a call do not depend on whether
    the sparse representation is requested with them, the [dense] array of
    a [/embed/full] answer is the [embedding] that [/embed] answers for the
    same body. *)
Theorem embed_full_dense_is_embed (d : gmap string pyval) {W : Type}
    (model : model_t W) (w1 w2 : W) (dense sparse : pyval)
    (Hflag : ∀ v r2, (model (expected_call EmbedFullRoute v) w2).1 = inr r2 →
                     ∃ r1, (model (expected_call EmbedRoute v) w1).1 = inr r1
                           ∧ dense_vecs r1 = dense_vecs r2)
    (Hfull : outcome (run model (embed_full (PyDict d)) w2)
               = inr {| json := PyDict {[ "dense" := dense; "sparse" := sparse ]};
                        status := 200 |}) :
  outcome (run model (embed (PyDict d)) w1)
    = inr {| json := PyDict {[ "embedding" := dense ]}; status := 200 |}.
Proof.
  destruct (truthy (default (PyStr "") (d !! "text"))) eqn:Ht.
  2:{ pose proof (falsy_outcome EmbedFullRoute d model w2 Ht) as Hrej.
      cbn [handler] in Hrej. rewrite Hrej in Hfull. cbn in Hfull. done. }
  rewrite embed_full_outcome in Hfull by done.
  rewrite embed_outcome by done.
  destruct (model (expected_call EmbedFullRoute _) w2).1 as [e|r2] eqn:Hm2; [done|].
  destruct (Hflag _ r2 Hm2) as (r1 & -> & ->).
  destruct (dense_vecs r2) as [|vec vecs]; [done|].
  destruct (lexical_weights r2) as [|lw lws]; [done|].
  apply outcome_json in Hfull. cbn [json jsonify] in Hfull.
  apply two_key_body_inv in Hfull as [<- _]; done.
Qed.

(** X10. With a model whose answer to a call does not depend on its state,
    a batch of one is the single route: [/embed/batch] on [[v]] and
    [/embed] on [v] make the same call, and when the batch answers
    [embeddings], [/embed] answers its first entry (and fails with
    [IndexError] when there is none). *)
Theorem singleton_batch_is_single (v : pyval) (d1 d2 : gmap string pyval)
    {W : Type} (model : model_t W) (w1 w2 : W) (embeddings : list pyval)
    (Hdet : deterministic model)
    (Hv : truthy v = true)
    (Htexts : d1 !! "texts" = Some (PyList [v]))
    (Htext : d2 !! "text" = Some v)
    (Hbatch : outcome (run model (embed_batch (PyDict d1)) w1)
                = inr {| json := PyDict {[ "embeddings" := PyList embeddings ]};
                         status := 200 |}) :
  calls (run model (embed_batch (PyDict d1)) w1)
    = calls (run model (embed (PyDict d2)) w2)
  ∧ outcome (run model (embed (PyDict d2)) w2)
      = match embeddings with
        | [] => inl IndexError
        | e :: _ => inr {| json := PyDict {[ "embedding" := e ]}; status := 200 |}
        end.
Proof.
  split.
  - assert (field_value EmbedBatchRoute d1 = PyList [v]) as Hf1
      by (unfold field_value; cbn [required_field field_default]; by rewrite Htexts).
    assert (field_value EmbedRoute d2 = v) as Hf2
      by (unfold field_value; cbn [required_field field_default]; by rewrite Htext).
    pose proof (calls_of_validated EmbedBatchRoute d1 model w1) as Hc1.
    pose proof (calls_of_validated EmbedRoute d2 model w2) as Hc2.
    rewrite Hf1 in Hc1. rewrite Hf2 in Hc2. cbn [handler] in Hc1, Hc2.
    rewrite Hc1, Hc2 by done. reflexivity.
  - rewrite embed_batch_outcome in Hbatch by (by rewrite Htexts).
    rewrite embed_outcome by (by rewrite Htext).
    rewrite Htexts in Hbatch. rewrite Htext. cbn [default from_option id] in Hbatch |- *.
    change (expected_call EmbedBatchRoute (PyList [v]))
      with (expected_call EmbedRoute v) in Hbatch.
    rewrite (Hdet _ w2 w1).
    destruct (model (expected_call EmbedRoute v) w1).1 as [e|r]; [done|].
    apply outcome_json in Hbatch. cbn [json jsonify] in Hbatch.
    apply one_key_body_inv in Hbatch.
    assert (embeddings = py_floats ∘ tolist <$> dense_vecs r) as -> by congruence.
    by destruct (dense_vecs r).
Qed.

(** X11. With a model that returns, for a non-empty batch of strings, the
    vector and the mapping of each string in input order,
    [/embed/batch/full] on [T] answers [dense] and [sparse] of length
    [len(T)]; entry [i] of each belongs to [T[i]], and the pair is what
    [/embed/full] answers on [T[i]] alone whenever [T[i]] is not the empty
    string. *)
Theorem batch_full_matches_single_full {W : Type} (model : model_t W)
    (vec_of : string → ndarray) (weights_of : string → lexical_weights_t)
    (T : list string) (w : W)
    (Hper : ∀ (T' : list string) (w' : W), T' ≠ [] →
              ∃ r, (model (expected_call EmbedBatchFullRoute (PyList (PyStr <$> T'))) w').1
                     = inr r
                   ∧ dense_vecs r = vec_of <$> T'
                   ∧ lexical_weights r = weights_of <$> T')
    (HT : T ≠ []) :
  ∃ dense sparse,
    outcome (run model (embed_batch_full
                          (PyDict {[ "texts" := PyList (PyStr <$> T) ]})) w)
      = inr {| json := PyDict {[ "dense" := PyList dense; "sparse" := PyList sparse ]};
               status := 200 |}
    ∧ length dense = length T
    ∧ length sparse = length T
    ∧ ∀ i s, T !! i = Some s →
        dense !! i = Some (PyList (PyFloat <$> tolist (vec_of s)))
        ∧ sparse !! i = Some (sparse_to_dict (weights_of s))
        ∧ (s ≠ "" →
           ∀ w', outcome (run model (embed_full (PyDict {[ "text" := PyStr s ]})) w')
                   = inr {| json := PyDict {[ "dense" := PyList (PyFloat <$> tolist (vec_of s));
                                              "sparse" := sparse_to_dict (weights_of s) ]};
                            status := 200 |}).
Proof.
  exists ((λ s, PyList (PyFloat <$> tolist (vec_of s))) <$> T),
         ((λ s, sparse_to_dict (weights_of s)) <$> T).
  split; [|split; [|split]].
  - rewrite embed_batch_full_outcome; rewrite lookup_singleton_eq;
      cbn [default from_option id]; [|by destruct T].
    destruct (Hper T w HT) as (r & -> & -> & ->).
    by rewrite <- !list_fmap_compose.
  - by rewrite length_fmap.
  - by rewrite length_fmap.
  - intros i s Hi. rewrite !list_lookup_fmap, Hi. do 2 (split; [done|]).
    intros Hs w'.
    rewrite embed_full_outcome; rewrite lookup_singleton_eq;
      cbn [default from_option id];
      [|cbn; apply negb_true_iff; by apply String.eqb_neq].
    destruct (Hper [s] w') as (r & Hm & Hd & Hl); [done|].
    change (expected_call EmbedBatchFullRoute (PyList (PyStr <$> [s])))
      with (expected_call EmbedFullRoute (PyStr s)) in Hm.
    rewrite Hm, Hd, Hl. reflexivity.
Qed.

End Answers.

(** ** Start-up *)

Section StartupProperties.
Context {collab : Collaborator}.
Variable str_to_int : string → exn + Z.

(** X12. When the module loads, the length limit of every call any
    handler ever makes is the integer [int] gave for the text of
    [MAX_LENGTH] (the variable if it is set, even to the empty string,
    and ["8192"] only if it is not set), whatever the request body holds;
    and [/health] reports [MODEL_NAME] the same way.  The two
    assignments fail exactly when [int] rejects that text. *)
Theorem configuration_comes_from_the_environment (environ : gmap string string)
    (cfg : Config)
    (Hload : load_module str_to_int environ = inr cfg) :
  str_to_int (default "8192" (environ !! "MAX_LENGTH")) = inr (@MAX_LENGTH cfg)
  ∧ (∀ (ep : endpoint) (data : pyval) (W : Type) (model : model_t W) (w : W),
       Forall (λ a, max_length a = @MAX_LENGTH cfg)
         (calls (run model (handler (config:=cfg) ep data) w)))
  ∧ json (health (config:=cfg))
      = PyDict {[ "status" := PyStr "ok";
                  "model" := PyStr (default "BAAI/bge-m3" (environ !! "MODEL_NAME")) ]}
  ∧ (∀ environ', (∃ e, load_module str_to_int environ' = inl e)
                 ↔ ∃ e, str_to_int (default "8192" (environ' !! "MAX_LENGTH")) = inl e).
Proof.
  unfold load_module, os_environ_get in Hload.
  destruct (str_to_int (default "8192" (environ !! "MAX_LENGTH"))) as [e|n] eqn:Hn;
    [done|].
  injection Hload as <-. cbn.
  split; [done|]. split; [|split; [done|]].
  - intros ep data W model w.
    destruct data as [| | | | | |d];
      try (rewrite handler_not_dict by done; constructor).
    destruct (truthy (field_value ep d)) eqn:Ht.
    + rewrite calls_of_validated by done. by repeat constructor.
    + rewrite handler_falsy by done. constructor.
  - intros environ'. unfold load_module, os_environ_get.
    destruct (str_to_int (default "8192" (environ' !! "MAX_LENGTH"))) as [e|n'].
    + split; intros _; by exists e.
    + split; intros [e He]; done.
Qed.

End StartupProperties.

(** * The handlers on the concrete collaborator *)

#[local] Existing Instances demo_collab demo_config.

(** The mapping's order is kept as it is; nothing is sorted. *)
Example sparse_to_dict_keeps_order :
  sparse_to_dict [(5, demo_float 1); (2, demo_float 0); (9, demo_float 3)]
    = PyDict {[ "indices" := PyList [PyInt 5; PyInt 2; PyInt 9];
                "values" := PyList [PyFloat (demo_float 1); PyFloat (demo_float 0);
                                    PyFloat (demo_float 3)] ]}.
Proof. reflexivity. Qed.

Example health_ok :
  health = {| json := PyDict {[ "status" := PyStr "ok"; "model" := PyStr "BAAI/bge-m3" ]};
              status := 200 |}.
Proof. reflexivity. Qed.

Example embed_batch_two_texts :
  run demo_model (embed_batch (PyDict {[ "texts" := PyList [PyStr "abc"; PyStr "z"] ]})) 0%nat
    = {| outcome := inr {| json := PyDict {[ "embeddings" := PyList
                             [ PyList [PyFloat (demo_float 3); PyFloat (demo_float 0)];
                               PyList [PyFloat (demo_float 1); PyFloat (demo_float 0)] ] ]};
                           status := 200 |};
         calls := [ {| sentences := PyList [PyStr "abc"; PyStr "z"];
                       max_length := 8192;
                       return_dense := true;
                       return_sparse := false;
                       return_colbert_vecs := false |} ];
         world := 1%nat |}.
Proof. reflexivity. Qed.

(** A model that answers with no vector at all makes the single route
    fail on [[0]]; nothing is answered in its place. *)
Example embed_index_error :
  outcome (run (λ _ (w : unit), (inr {| dense_vecs := []; lexical_weights := [] |}, w))
             (embed (PyDict {[ "text" := PyStr "hi" ]})) ())
    = inl IndexError.
Proof. reflexivity. Qed.

Lemma demo_model_deterministic : deterministic demo_model.
Proof.
  intros args w1 w2. unfold demo_model. by destruct (sentences args).
Qed.

Lemma demo_model_per_input : per_input demo_model demo_vec_of.
Proof.
  intros T w _. eexists. split; [reflexivity|].
  cbn. by rewrite <- list_fmap_compose.
Qed.

Lemma missing_field_is_400_witness :
  missing_or_empty (required_field EmbedBatchRoute) {[ "text" := PyStr "hi" ]}
  ∧ embed_batch (PyDict {[ "text" := PyStr "hi" ]})
      = Ret {| json := PyDict {[ "error" := PyStr "texts is required" ]};
               status := 400 |}.
Proof.
  split.
  - left. reflexivity.
  - apply (missing_field_is_400 EmbedBatchRoute). left. reflexivity.
Defined.

Lemma rejected_request_never_calls_model_witness :
  truthy (field_value EmbedFullRoute {[ "text" := PyStr "" ]}) = false
  ∧ run demo_model (embed_full (PyDict {[ "text" := PyStr "" ]})) 7%nat
      = {| outcome := inr {| json := PyDict {[ "error" := PyStr "text is required" ]};
                             status := 400 |};
           calls := [];
           world := 7%nat |}.
Proof.
  split.
  - reflexivity.
  - apply (rejected_request_never_calls_model EmbedFullRoute
             {[ "text" := PyStr "" ]} demo_model 7%nat).
    reflexivity.
Defined.

Lemma validated_request_calls_encode_once_witness :
  truthy (field_value EmbedBatchFullRoute
            {[ "texts" := PyList [PyStr "a"; PyStr "b"] ]}) = true
  ∧ calls (run failing_model
             (embed_batch_full (PyDict {[ "texts" := PyList [PyStr "a"; PyStr "b"] ]}))
             0%nat)
      = [ {| sentences := PyList [PyStr "a"; PyStr "b"];
             max_length := 8192;
             return_dense := true;
             return_sparse := true;
             return_colbert_vecs := false |} ].
Proof.
  split.
  - reflexivity.
  - exact (validated_request_calls_encode_once EmbedBatchFullRoute
             {[ "texts" := PyList [PyStr "a"; PyStr "b"] ]} failing_model 0%nat
             eq_refl).
Defined.

Lemma null_body_raises_witness :
  run demo_model (embed_batch PyNone) 0%nat
    = {| outcome := inl AttributeError; calls := []; world := 0%nat |}
  ∧ run demo_model (embed_batch (PyList [PyStr "a"])) 0%nat
      = {| outcome := inl AttributeError; calls := []; world := 0%nat |}.
Proof.
  destruct (null_body_raises EmbedBatchRoute demo_model 0%nat) as (Hnull & Hother & _).
  split.
  - exact Hnull.
  - apply Hother. intros d Hd. discriminate Hd.
Defined.

Lemma validation_tests_truthiness_only_witness :
  run demo_model (embed (PyDict {[ "text" := PyInt 0 ]})) 0%nat
    = {| outcome := inr {| json := PyDict {[ "error" := PyStr "text is required" ]};
                           status := 400 |};
         calls := [];
         world := 0%nat |}
  ∧ ∃ args, calls (run demo_model (embed_batch (PyDict {[ "texts" := PyStr "abc" ]})) 0%nat)
              = [args]
            ∧ sentences args = PyStr "abc".
Proof.
  destruct (validation_tests_truthiness_only EmbedRoute
              {[ "text" := PyInt 0 ]} demo_model 0%nat) as (Hfalsy & _).
  destruct (validation_tests_truthiness_only EmbedBatchRoute
              {[ "texts" := PyStr "abc" ]} demo_model 0%nat) as (_ & Htruthy & _).
  split.
  - exact (Hfalsy eq_refl).
  - exact (Htruthy eq_refl).
Defined.




Lemma embed_deterministic_witness :
  deterministic demo_model
  ∧ "hi" ≠ ""
  ∧ outcome (run demo_model (embed (PyDict {[ "text" := PyStr "hi" ]})) 0%nat)
      = outcome (run demo_model (embed (PyDict {[ "text" := PyStr "hi" ]})) 5%nat)
  ∧ outcome (run demo_model (embed (PyDict {[ "text" := PyStr "hi" ]}))
               (world (run demo_model (embed (PyDict {[ "text" := PyStr "hi" ]})) 0%nat)))
      = outcome (run demo_model (embed (PyDict {[ "text" := PyStr "hi" ]})) 0%nat)
  ∧ calls (run demo_model (embed (PyDict {[ "text" := PyStr "hi" ]})) 0%nat)
      = [expected_call EmbedRoute (PyStr "hi")].
Proof.
  split; [exact demo_model_deterministic|].
  split; [discriminate|].
  exact (embed_deterministic demo_model "hi" demo_model_deterministic
           ltac:(discriminate) 0%nat 5%nat).
Defined.

Lemma batch_matches_single_on_nonempty_texts_witness :
  per_input demo_model demo_vec_of
  ∧ ["a"; ""; "bc"] ≠ []
  ∧ ∃ embeddings,
      outcome (run demo_model
                 (embed_batch (PyDict {[ "texts" := PyList (PyStr <$> ["a"; ""; "bc"]) ]}))
                 0%nat)
        = inr (jsonify (PyDict {[ "embeddings" := PyList embeddings ]}))
      ∧ length embeddings = length ["a"; ""; "bc"]
      ∧ ∀ i s, ["a"; ""; "bc"] !! i = Some s →
          embeddings !! i = Some (py_floats (tolist (demo_vec_of s)))
          ∧ (s ≠ "" →
             ∀ w', outcome (run demo_model (embed (PyDict {[ "text" := PyStr s ]})) w')
                     = inr (jsonify (PyDict {[ "embedding" :=
                              py_floats (tolist (demo_vec_of s)) ]}))).
Proof.
  split; [exact demo_model_per_input|].
  split; [discriminate|].
  exact (batch_matches_single_on_nonempty_texts demo_model demo_vec_of
           ["a"; ""; "bc"] 0%nat demo_model_per_input ltac:(discriminate)).
Defined.

(** C4, as stated, fails: the batch route accepts [[""]] and answers with
    one embedding, while the single route rejects the empty string with
    400, under a model that does return per-input vectors in input order. *)
Lemma batch_differs_from_single_on_empty_text :
  per_input demo_model demo_vec_of
  ∧ [""] ≠ []
  ∧ ¬ batch_matches_single demo_model 0%nat [""]
  ∧ outcome (run demo_model (embed_batch (PyDict {[ "texts" := PyList [PyStr ""] ]})) 0%nat)
      = inr {| json := PyDict {[ "embeddings" :=
                         PyList [PyList [PyFloat (demo_float 0); PyFloat (demo_float 0)]] ]};
               status := 200 |}
  ∧ outcome (run demo_model (embed (PyDict {[ "text" := PyStr "" ]})) 0%nat)
      = inr {| json := PyDict {[ "error" := PyStr "text is required" ]};
               status := 400 |}.
Proof.
  split; [exact demo_model_per_input|].
  split; [discriminate|].
  split; [|split; reflexivity].
  intros (embeddings & _ & _ & Hsingle).
  destruct (Hsingle 0%nat "" eq_refl) as (e & _ & Hresp).
  specialize (Hresp 0%nat). cbn in Hresp.
  injection Hresp as _ Hstatus. discriminate Hstatus.
Qed.

(** ** The further properties on the concrete collaborator *)

Lemma demo_model_per_input_full (T : list string) (w : nat) :
  T ≠ [] →
  ∃ r, (demo_model (expected_call EmbedBatchFullRoute (PyList (PyStr <$> T))) w).1 = inr r
       ∧ dense_vecs r = demo_vec_of <$> T
       ∧ lexical_weights r = demo_weights_of <$> T.
Proof.
  intros _. eexists. split; [reflexivity|].
  cbn. by rewrite <- !list_fmap_compose.
Qed.

Lemma embed_answers_first_vector_witness :
  truthy (default (PyStr "") (({[ "text" := PyStr "hi" ]} : gmap string pyval) !! "text")) = true
  ∧ outcome (run lopsided_model (embed (PyDict {[ "text" := PyStr "hi" ]})) 0%nat)
      = inr {| json := PyDict {[ "embedding" := PyList [PyFloat (demo_float 1)] ]};
               status := 200 |}
  ∧ world (run lopsided_model (embed (PyDict {[ "text" := PyStr "hi" ]})) 0%nat) = 1%nat.
Proof.
  split; [reflexivity|].
  exact (embed_answers_first_vector {[ "text" := PyStr "hi" ]} lopsided_model 0%nat eq_refl).
Defined.

Lemma embed_full_answers_first_pair_witness :
  truthy (default (PyStr "") (({[ "text" := PyStr "hi" ]} : gmap string pyval) !! "text")) = true
  ∧ outcome (run lopsided_model (embed_full (PyDict {[ "text" := PyStr "hi" ]})) 0%nat)
      = inr {| json := PyDict {[ "dense" := PyList [PyFloat (demo_float 1)];
                                 "sparse" := PyDict {[ "indices" := PyList [PyInt 7];
                                                       "values" := PyList [PyFloat (demo_float 3)] ]} ]};
               status := 200 |}
  ∧ world (run lopsided_model (embed_full (PyDict {[ "text" := PyStr "hi" ]})) 0%nat) = 1%nat.
Proof.
  split; [reflexivity|].
  exact (embed_full_answers_first_pair {[ "text" := PyStr "hi" ]} lopsided_model 0%nat eq_refl).
Defined.

Lemma embed_batch_answers_every_row_witness :
  ({[ "texts" := PyList [PyStr "a"] ]} : gmap string pyval) !! "texts"
    = Some (PyList [PyStr "a"])
  ∧ [PyStr "a"] ≠ []
  ∧ (lopsided_model {| sentences := PyList [PyStr "a"];
                       max_length := 8192;
                       return_dense := true;
                       return_sparse := false;
                       return_colbert_vecs := false |} 0%nat).1 = inr lopsided_result
  ∧ ∃ embeddings,
      outcome (run lopsided_model (embed_batch (PyDict {[ "texts" := PyList [PyStr "a"] ]})) 0%nat)
        = inr {| json := PyDict {[ "embeddings" := PyList embeddings ]}; status := 200 |}
      ∧ length embeddings = 2%nat
      ∧ (∀ i, embeddings !! i
              = (λ vec, PyList (PyFloat <$> tolist vec)) <$> dense_vecs lopsided_result !! i)
      ∧ (dense_vecs lopsided_result = [] → embeddings = []).
Proof.
  split; [reflexivity|]. split; [discriminate|]. split; [reflexivity|].
  exact (embed_batch_answers_every_row {[ "texts" := PyList [PyStr "a"] ]} [PyStr "a"]
           lopsided_model 0%nat lopsided_result eq_refl ltac:(discriminate) eq_refl).
Defined.

Lemma embed_batch_full_answers_rowwise_witness :
  ({[ "texts" := PyList [PyStr "a"] ]} : gmap string pyval) !! "texts"
    = Some (PyList [PyStr "a"])
  ∧ [PyStr "a"] ≠ []
  ∧ (lopsided_model {| sentences := PyList [PyStr "a"];
                       max_length := 8192;
                       return_dense := true;
                       return_sparse := true;
                       return_colbert_vecs := false |} 0%nat).1 = inr lopsided_result
  ∧ ∃ dense sparse,
      outcome (run lopsided_model
                 (embed_batch_full (PyDict {[ "texts" := PyList [PyStr "a"] ]})) 0%nat)
        = inr {| json := PyDict {[ "dense" := PyList dense; "sparse" := PyList sparse ]};
                 status := 200 |}
      ∧ length dense = 2%nat
      ∧ length sparse = 1%nat
      ∧ ∀ i, dense !! i
               = (λ vec, PyList (PyFloat <$> tolist vec)) <$> dense_vecs lopsided_result !! i
             ∧ sparse !! i = sparse_to_dict <$> lexical_weights lopsided_result !! i.
Proof.
  split; [reflexivity|]. split; [discriminate|]. split; [reflexivity|].
  exact (embed_batch_full_answers_rowwise {[ "texts" := PyList [PyStr "a"] ]} [PyStr "a"]
           lopsided_model 0%nat lopsided_result eq_refl ltac:(discriminate) eq_refl).
Defined.

Lemma answer_is_400_before_or_200_after_the_call_witness :
  outcome (run failing_model (embed_batch (PyDict {[ "texts" := PyList [] ]})) 3%nat)
    = inr (validation_error EmbedBatchRoute)
  ∧ ((status (validation_error EmbedBatchRoute) = 400
      ∧ validation_error EmbedBatchRoute = validation_error EmbedBatchRoute
      ∧ calls (run failing_model (embed_batch (PyDict {[ "texts" := PyList [] ]})) 3%nat) = []
      ∧ world (run failing_model (embed_batch (PyDict {[ "texts" := PyList [] ]})) 3%nat) = 3%nat)
     ∨ (status (validation_error EmbedBatchRoute) = 200
        ∧ ∃ d, PyDict {[ "texts" := PyList [] ]} = PyDict d
               ∧ calls (run failing_model (embed_batch (PyDict {[ "texts" := PyList [] ]})) 3%nat)
                   = [expected_call EmbedBatchRoute (field_value EmbedBatchRoute d)])).
Proof.
  split; [reflexivity|].
  exact (answer_is_400_before_or_200_after_the_call EmbedBatchRoute
           (PyDict {[ "texts" := PyList [] ]}) failing_model 3%nat
           (validation_error EmbedBatchRoute) eq_refl).
Defined.

Lemma handler_reads_only_its_field_witness :
  ({[ "text" := PyStr "hi" ]} : gmap string pyval) !! "text"
    = ({[ "text" := PyStr "hi"; "max_length" := PyInt 5; "texts" := PyList [] ]}
         : gmap string pyval) !! "text"
  ∧ embed (PyDict {[ "text" := PyStr "hi" ]})
      = embed (PyDict {[ "text" := PyStr "hi"; "max_length" := PyInt 5;
                         "texts" := PyList [] ]}).
Proof.
  split; [reflexivity|].
  exact (handler_reads_only_its_field EmbedRoute
           {[ "text" := PyStr "hi" ]}
           {[ "text" := PyStr "hi"; "max_length" := PyInt 5; "texts" := PyList [] ]}
           eq_refl).
Defined.

Lemma sparse_to_dict_loses_nothing_witness :
  sparse_to_dict [(5, demo_float 1); (2, demo_float 0)]
    = sparse_to_dict [(5, demo_float 1); (2, demo_float 0)]
  ∧ (λ kv : Z * spec_float, (kv.1, kv.2)) <$> [(5, demo_float 1); (2, demo_float 0)]
      = (λ kv : Z * spec_float, (kv.1, kv.2)) <$> [(5, demo_float 1); (2, demo_float 0)].
Proof.
  split; [reflexivity|].
  exact (proj1 (sparse_to_dict_loses_nothing
                  [(5, demo_float 1); (2, demo_float 0)]
                  [(5, demo_float 1); (2, demo_float 0)] eq_refl)).
Defined.

Lemma sparse_indices_distinct_witness :
  NoDup (dict_keys [(5, demo_float 1); (2, demo_float 0)])
  ∧ ∃ (idx : list Z) (vals : list spec_float),
      sparse_to_dict [(5, demo_float 1); (2, demo_float 0)]
        = PyDict {[ "indices" := PyList (PyInt <$> idx);
                    "values" := PyList (PyFloat <$> vals) ]}
      ∧ NoDup idx
      ∧ length idx = 2%nat.
Proof.
  assert (NoDup (dict_keys [(5, demo_float 1); (2, demo_float 0)])) as Hkeys.
  { cbn. apply NoDup_cons. split; [|apply NoDup_singleton].
    apply not_elem_of_cons. split; [done|apply not_elem_of_nil]. }
  split; [exact Hkeys|].
  exact (sparse_indices_distinct [(5, demo_float 1); (2, demo_float 0)] Hkeys
           (λ k k' _ _ Heq, Heq)).
Defined.

Lemma embed_full_dense_is_embed_witness :
  outcome (run demo_model (embed_full (PyDict {[ "text" := PyStr "ab" ]})) 3%nat)
    = inr {| json := PyDict {[ "dense" := PyList [PyFloat (demo_float 2); PyFloat (demo_float 0)];
                               "sparse" := PyDict {[ "indices" := PyList [PyInt 97];
                                                     "values" := PyList [PyFloat (demo_float 1)] ]} ]};
             status := 200 |}
  ∧ outcome (run demo_model (embed (PyDict {[ "text" := PyStr "ab" ]})) 0%nat)
      = inr {| json := PyDict {[ "embedding" :=
                         PyList [PyFloat (demo_float 2); PyFloat (demo_float 0)] ]};
               status := 200 |}.
Proof.
  split; [reflexivity|].
  refine (embed_full_dense_is_embed {[ "text" := PyStr "ab" ]} demo_model 0%nat 3%nat
            _ _ _ eq_refl).
  intros v r2 Hr2. eexists. split; [reflexivity|].
  cbn in Hr2. by injection Hr2 as <-.
Defined.

Lemma singleton_batch_is_single_witness :
  deterministic demo_model
  ∧ truthy (PyStr "hi") = true
  ∧ outcome (run demo_model (embed_batch (PyDict {[ "texts" := PyList [PyStr "hi"] ]})) 0%nat)
      = inr {| json := PyDict {[ "embeddings" :=
                         PyList [PyList [PyFloat (demo_float 2); PyFloat (demo_float 0)]] ]};
               status := 200 |}
  ∧ calls (run demo_model (embed_batch (PyDict {[ "texts" := PyList [PyStr "hi"] ]})) 0%nat)
      = calls (run demo_model (embed (PyDict {[ "text" := PyStr "hi" ]})) 4%nat)
  ∧ outcome (run demo_model (embed (PyDict {[ "text" := PyStr "hi" ]})) 4%nat)
      = inr {| json := PyDict {[ "embedding" :=
                         PyList [PyFloat (demo_float 2); PyFloat (demo_float 0)] ]};
               status := 200 |}.
Proof.
  split; [exact demo_model_deterministic|].
  split; [reflexivity|]. split; [reflexivity|].
  exact (singleton_batch_is_single (PyStr "hi")
           {[ "texts" := PyList [PyStr "hi"] ]} {[ "text" := PyStr "hi" ]}
           demo_model 0%nat 4%nat
           [PyList [PyFloat (demo_float 2); PyFloat (demo_float 0)]]
           demo_model_deterministic eq_refl eq_refl eq_refl eq_refl).
Defined.

Lemma batch_full_matches_single_full_witness :
  ["a"; ""; "bc"] ≠ []
  ∧ ∃ dense sparse,
      outcome (run demo_model
                 (embed_batch_full
                    (PyDict {[ "texts" := PyList (PyStr <$> ["a"; ""; "bc"]) ]})) 0%nat)
        = inr {| json := PyDict {[ "dense" := PyList dense; "sparse" := PyList sparse ]};
                 status := 200 |}
      ∧ length dense = length ["a"; ""; "bc"]
      ∧ length sparse = length ["a"; ""; "bc"]
      ∧ ∀ i s, ["a"; ""; "bc"] !! i = Some s →
          dense !! i = Some (PyList (PyFloat <$> tolist (demo_vec_of s)))
          ∧ sparse !! i = Some (sparse_to_dict (demo_weights_of s))
          ∧ (s ≠ "" →
             ∀ w', outcome (run demo_model (embed_full (PyDict {[ "text" := PyStr s ]})) w')
                     = inr {| json := PyDict {[ "dense" := PyList (PyFloat <$> tolist (demo_vec_of s));
                                                "sparse" := sparse_to_dict (demo_weights_of s) ]};
                              status := 200 |}).
Proof.
  split; [discriminate|].
  exact (batch_full_matches_single_full demo_model demo_vec_of demo_weights_of
           ["a"; ""; "bc"] 0%nat demo_model_per_input_full ltac:(discriminate)).
Defined.

Lemma configuration_comes_from_the_environment_witness :
  load_module demo_str_to_int {[ "MAX_LENGTH" := "512"; "MODEL_NAME" := "" ]}
    = inr {| MODEL_NAME := ""; MAX_LENGTH := 512 |}
  ∧ demo_str_to_int "512" = inr 512
  ∧ json (health (config := {| MODEL_NAME := ""; MAX_LENGTH := 512 |}))
      = PyDict {[ "status" := PyStr "ok"; "model" := PyStr "" ]}.
Proof.
  assert (load_module demo_str_to_int {[ "MAX_LENGTH" := "512"; "MODEL_NAME" := "" ]}
            = inr {| MODEL_NAME := ""; MAX_LENGTH := 512 |}) as Hload
    by reflexivity.
  split; [exact Hload|].
  destruct (configuration_comes_from_the_environment demo_str_to_int
              {[ "MAX_LENGTH" := "512"; "MODEL_NAME" := "" ]}
              {| MODEL_NAME := ""; MAX_LENGTH := 512 |} Hload)
    as (Hint & _ & Hhealth & _).
  split; [exact Hint | exact Hhealth].
Defined.
